(** * Shelly 2.5: peripheral bring-up and HAP topology resolution

    A shallow embedding of [src/Shelly25/shelly_init.cpp]:
    [PowerMeterInit], [CreatePeripherals] and [CreateComponents].

    The three functions mutate vectors handed in by pointer and one file-level
    global ([s_ade7953]); they are embedded with explicit state passing.  Every
    externally visible call the source makes is also appended, in program
    order, to a ghost trace, so that ordering and "how many times" properties
    can be stated. *)

From Stdlib Require Import ZArith.
From stdpp Require Import base list strings.

Local Open Scope Z_scope.

(** ** Status values (mgos::Status) *)

Inductive StatusCode :=
| STATUS_UNAVAILABLE
| STATUS_error (n : Z).

Inductive Status :=
| Status_OK
| Errorf (code : StatusCode) (msg : string).

Definition ok (st : Status) : bool :=
  match st with
  | Status_OK => true
  | Errorf _ _ => false
  end.

(** ** Floating-point literals

    The calibration constants are carried exactly as they are written in the
    source; no arithmetic is ever performed on them here. *)

Inductive fconst :=
| FDec (mantissa : Z) (exp10 : Z)        (* mantissa * 10^exp10 *)
| FDiv (num den : fconst).

Record mgos_ade7953_config := {
  voltage_scale : fconst;
  voltage_offset : fconst;
  current_scale : fconst * fconst;
  current_offset : fconst * fconst;
  apower_scale : fconst * fconst;
  aenergy_scale : fconst * fconst;
}.

(** The chip-driver handle, [struct mgos_ade7953 *]; a null pointer is [None]. *)
Record mgos_ade7953 := { ade7953_cfg_of : mgos_ade7953_config }.

(** ** Peripherals *)

(** [OutputPin(id, pin, on_value)]. *)
Record OutputPin := {
  out_id : Z;
  out_pin : Z;
  out_on_value : Z;
}.

Inductive mgos_gpio_pull_type := MGOS_GPIO_PULL_NONE | MGOS_GPIO_PULL_UP | MGOS_GPIO_PULL_DOWN.

(** [std::bind(&HandleInputResetSequence, in, n, _1, _2)]: the bound input is
    recorded by its id, [n] is the bound integer argument. *)
Inductive Handler :=
| HandleInputResetSequence (bound_in : Z) (bound_arg : Z).

(** [InputPin(id, pin, on_value, pull, flag)].  [in_inited] records that
    [Init()] has run on the object. *)
Record InputPin := {
  in_id : Z;
  in_pin : Z;
  in_on_value : Z;
  in_pull : mgos_gpio_pull_type;
  in_flag : bool;
  in_handlers : list Handler;
  in_inited : bool;
}.

Definition new_InputPin (id pin on_value : Z) (pull : mgos_gpio_pull_type) (flag : bool) : InputPin :=
  {| in_id := id; in_pin := pin; in_on_value := on_value; in_pull := pull;
     in_flag := flag; in_handlers := []; in_inited := false |}.

Definition AddHandler (h : Handler) (i : InputPin) : InputPin :=
  {| in_id := in_id i; in_pin := in_pin i; in_on_value := in_on_value i;
     in_pull := in_pull i; in_flag := in_flag i;
     in_handlers := in_handlers i ++ [h]; in_inited := in_inited i |}.

Definition InputPin_Init (i : InputPin) : InputPin :=
  {| in_id := in_id i; in_pin := in_pin i; in_on_value := in_on_value i;
     in_pull := in_pull i; in_flag := in_flag i;
     in_handlers := in_handlers i; in_inited := true |}.

(** [ADE7953PowerMeter(id, ade7953, channel)]. *)
Record ADE7953PowerMeter := {
  pm_id : Z;
  pm_ade7953 : mgos_ade7953;
  pm_channel : Z;
}.

(** [TempSensorSDNT1608X103F3950(id, vref, resistance)]. *)
Record TempSensor := {
  ts_id : Z;
  ts_vref : fconst;
  ts_r : fconst;
}.

(** ** Ghost trace of [CreatePeripherals] / [PowerMeterInit] *)

Inductive log_level := LL_ERROR.

Inductive PEvent :=
| EvNewOutputPin (o : OutputPin)
| EvNewInputPin (id : Z)
| EvAddHandler (in_id : Z) (h : Handler)
| EvInputInit (in_id : Z)
| EvAde7953Create
| EvNewPowerMeter (id : Z) (channel : Z)
| EvPowerMeterInit (id : Z)
| EvLog (lvl : log_level) (fmt : string) (arg : option Status)
| EvNewTempSensor (id : Z).

(** The vectors and the out-parameter the caller passes by pointer, the
    file-level global [s_ade7953], and the trace. *)
Record Machine := {
  m_inputs : list InputPin;
  m_outputs : list OutputPin;
  m_pms : list ADE7953PowerMeter;
  m_sys_temp : option TempSensor;
  m_s_ade7953 : option mgos_ade7953;
  m_trace : list PEvent;
}.

Definition emit (e : PEvent) (m : Machine) : Machine :=
  {| m_inputs := m_inputs m; m_outputs := m_outputs m; m_pms := m_pms m;
     m_sys_temp := m_sys_temp m; m_s_ade7953 := m_s_ade7953 m;
     m_trace := m_trace m ++ [e] |}.

Definition set_s_ade7953 (h : option mgos_ade7953) (m : Machine) : Machine :=
  {| m_inputs := m_inputs m; m_outputs := m_outputs m; m_pms := m_pms m;
     m_sys_temp := m_sys_temp m; m_s_ade7953 := h; m_trace := m_trace m |}.

Definition pms_emplace_back (p : ADE7953PowerMeter) (m : Machine) : Machine :=
  {| m_inputs := m_inputs m; m_outputs := m_outputs m; m_pms := m_pms m ++ [p];
     m_sys_temp := m_sys_temp m; m_s_ade7953 := m_s_ade7953 m; m_trace := m_trace m |}.

Definition outputs_emplace_back (o : OutputPin) (m : Machine) : Machine :=
  {| m_inputs := m_inputs m; m_outputs := m_outputs m ++ [o]; m_pms := m_pms m;
     m_sys_temp := m_sys_temp m; m_s_ade7953 := m_s_ade7953 m; m_trace := m_trace m |}.

Definition inputs_emplace_back (i : InputPin) (m : Machine) : Machine :=
  {| m_inputs := m_inputs m ++ [i]; m_outputs := m_outputs m; m_pms := m_pms m;
     m_sys_temp := m_sys_temp m; m_s_ade7953 := m_s_ade7953 m; m_trace := m_trace m |}.

Definition sys_temp_reset (t : TempSensor) (m : Machine) : Machine :=
  {| m_inputs := m_inputs m; m_outputs := m_outputs m; m_pms := m_pms m;
     m_sys_temp := Some t; m_s_ade7953 := m_s_ade7953 m; m_trace := m_trace m |}.

(** ** What the chip driver and the meters answer

    [mgos_ade7953_create] and [ADE7953PowerMeter::Init] live outside this
    file; their answers are inputs of the model.  The I2C bus argument is
    always the global bus and is not represented. *)
Class PowerHardware := {
  mgos_ade7953_create : mgos_ade7953_config -> option mgos_ade7953;
  PowerMeter_Init : ADE7953PowerMeter -> Status;
}.

Definition ade7953_cfg : mgos_ade7953_config :=
  {| voltage_scale := FDec 382602 (-10);
     voltage_offset := FDec (-68) (-3);
     current_scale := (FDec 949523 (-11), FDec 949523 (-11));
     current_offset := (FDec (-17) (-3), FDec (-17) (-3));
     apower_scale := (FDiv (FDec 1 0) (FDec 1640 (-1)), FDiv (FDec 1 0) (FDec 1640 (-1)));
     aenergy_scale := (FDiv (FDec 1 0) (FDec 252400 (-1)), FDiv (FDec 1 0) (FDec 252400 (-1))) |}.

Section Peripherals.
Context `{!PowerHardware}.

Definition PowerMeterInit (m : Machine) : Status * Machine :=
  let m := emit EvAde7953Create m in
  let m := set_s_ade7953 (mgos_ade7953_create ade7953_cfg) m in
  match m_s_ade7953 m with
  | None =>
      let m := emit (EvLog LL_ERROR "Failed to init ADE7953" None) m in
      (Errorf STATUS_UNAVAILABLE "Failed to init ADE7953", m)
  | Some h =>
      let pm1 := {| pm_id := 1; pm_ade7953 := h; pm_channel := 1 |} in
      let m := emit (EvNewPowerMeter 1 1) m in
      let m := emit (EvPowerMeterInit 1) m in
      let st := PowerMeter_Init pm1 in
      if negb (ok st) then (st, m) else
      let pm2 := {| pm_id := 2; pm_ade7953 := h; pm_channel := 0 |} in
      let m := emit (EvNewPowerMeter 2 0) m in
      let m := emit (EvPowerMeterInit 2) m in
      let st := PowerMeter_Init pm2 in
      if negb (ok st) then (st, m) else
      let m := pms_emplace_back pm1 m in
      let m := pms_emplace_back pm2 m in
      (Status_OK, m)
  end.

Definition CreatePeripherals (m : Machine) : Machine :=
  let o1 := {| out_id := 1; out_pin := 4; out_on_value := 1 |} in
  let m := emit (EvNewOutputPin o1) m in
  let m := outputs_emplace_back o1 m in
  let o2 := {| out_id := 2; out_pin := 15; out_on_value := 1 |} in
  let m := emit (EvNewOutputPin o2) m in
  let m := outputs_emplace_back o2 m in
  let in1 := new_InputPin 1 13 1 MGOS_GPIO_PULL_NONE true in
  let m := emit (EvNewInputPin 1) m in
  let h := HandleInputResetSequence (in_id in1) 4 in
  let in1 := AddHandler h in1 in
  let m := emit (EvAddHandler 1 h) m in
  let in1 := InputPin_Init in1 in
  let m := emit (EvInputInit 1) m in
  let m := inputs_emplace_back in1 m in
  let in2 := new_InputPin 2 5 1 MGOS_GPIO_PULL_NONE false in
  let m := emit (EvNewInputPin 2) m in
  let in2 := InputPin_Init in2 in
  let m := emit (EvInputInit 2) m in
  let m := inputs_emplace_back in2 m in
  let '(st, m) := PowerMeterInit m in
  let m := if negb (ok st)
           then emit (EvLog LL_ERROR "Failed to init ADE7953: %s" (Some st)) m
           else m in
  let m := emit (EvNewTempSensor 0) m in
  sys_temp_reset {| ts_id := 0; ts_vref := FDec 33 (-1); ts_r := FDec 330000 (-1) |} m.

End Peripherals.

(** The state in which the firmware calls [CreatePeripherals]: nothing
    registered yet, no chip handle. *)
Definition boot : Machine :=
  {| m_inputs := []; m_outputs := []; m_pms := []; m_sys_temp := None;
     m_s_ade7953 := None; m_trace := [] |}.

(** ** Persisted configuration (read-only)

    Only the fields [CreateComponents] reads are named; what the resolver
    merely passes on to a constructor or a collaborator is kept as an opaque
    payload. *)

Record mgos_config_wc := {
  wc_name : string;
  wc_in_mode : Z;
  wc_swap_inputs : bool;
}.

Record mgos_config_gdo := { gdo_payload : string }.

Record mgos_config_in := { in_payload : string }.

Record mgos_config_sw := {
  sw_payload : string;
  sw_in_mode : Z;
}.

Record mgos_sys_config := {
  shelly_mode : Z;
  shelly_legacy_hap_layout : bool;
  wc1 : mgos_config_wc;
  gdo1 : mgos_config_gdo;
  in1 : mgos_config_in;
  in2 : mgos_config_in;
  sw1 : mgos_config_sw;
  sw2 : mgos_config_sw;
}.

(** [hap::WindowCovering::InMode].  The header declaring the enum is not part
    of the sources at hand; the four enumerators are numbered in the order
    they are declared there, and [static_cast] of any other integer yields a
    value matching no [case] label. *)
Inductive InMode :=
| kSeparateMomentary
| kSeparateToggle
| kSingle
| kDetached
| kInMode_other (n : Z).

Definition InMode_of_int (n : Z) : InMode :=
  if n =? 0 then kSeparateMomentary
  else if n =? 1 then kSeparateToggle
  else if n =? 2 then kSingle
  else if n =? 3 then kDetached
  else kInMode_other n.

(** ** Components and accessories *)

Inductive HAPAccessoryCategory :=
| kHAPAccessoryCategory_BridgedAccessory
| kHAPAccessoryCategory_Bridges
| kHAPAccessoryCategory_GarageDoorOpeners
| kHAPAccessoryCategory_WindowCoverings
| kHAPAccessoryCategory_other (n : Z).

Record WindowCovering := {
  wc_id : Z;
  wc_in1 : option InputPin;
  wc_in2 : option InputPin;
  wc_out1 : option OutputPin;
  wc_out2 : option OutputPin;
  wc_pm1 : option ADE7953PowerMeter;
  wc_pm2 : option ADE7953PowerMeter;
  wc_cfg : mgos_config_wc;
  wc_primary : bool;
}.

Record GarageDoorOpener := {
  gdo_id : Z;
  gdo_in1 : option InputPin;
  gdo_in2 : option InputPin;
  gdo_out1 : option OutputPin;
  gdo_out2 : option OutputPin;
  gdo_cfg : mgos_config_gdo;
  gdo_primary : bool;
}.

(** Components built outside this file, by [CreateHAPSwitch] and
    [hap::CreateHAPInput]. *)
Inductive ExternalKind := HAPSwitch | HAPInput.

Record ExternalComponent := {
  ext_kind : ExternalKind;
  ext_id : Z;
  ext_primary : bool;
}.

Inductive Component :=
| CWindowCovering (wc : WindowCovering)
| CGarageDoorOpener (gdo : GarageDoorOpener)
| CExternal (e : ExternalComponent).

Definition primary (c : Component) : bool :=
  match c with
  | CWindowCovering wc => wc_primary wc
  | CGarageDoorOpener gdo => gdo_primary gdo
  | CExternal e => ext_primary e
  end.

Definition component_id (c : Component) : Z :=
  match c with
  | CWindowCovering wc => wc_id wc
  | CGarageDoorOpener gdo => gdo_id gdo
  | CExternal e => ext_id e
  end.

Definition set_primary_wc (b : bool) (wc : WindowCovering) : WindowCovering :=
  {| wc_id := wc_id wc; wc_in1 := wc_in1 wc; wc_in2 := wc_in2 wc;
     wc_out1 := wc_out1 wc; wc_out2 := wc_out2 wc; wc_pm1 := wc_pm1 wc;
     wc_pm2 := wc_pm2 wc; wc_cfg := wc_cfg wc; wc_primary := b |}.

Definition set_primary_gdo (b : bool) (gdo : GarageDoorOpener) : GarageDoorOpener :=
  {| gdo_id := gdo_id gdo; gdo_in1 := gdo_in1 gdo; gdo_in2 := gdo_in2 gdo;
     gdo_out1 := gdo_out1 gdo; gdo_out2 := gdo_out2 gdo; gdo_cfg := gdo_cfg gdo;
     gdo_primary := b |}.

(** A service attached to an accessory.  [AddService(c.get())] stores a
    pointer to the component; the component is not written to after it has
    been attached, so the pointee is recorded by value. *)
Inductive Service :=
| mgos_hap_accessory_information_service
| ServiceOf (c : Component).

(** [mgos::hap::Accessory(aid, category, name, identify_cb, svr)]; the
    identify callback and the server handle are the same for every accessory
    and are left out. *)
Record Accessory := {
  acc_aid : Z;
  acc_category : HAPAccessoryCategory;
  acc_name : string;
  acc_services : list Service;
}.

Definition SetCategory (cat : HAPAccessoryCategory) (a : Accessory) : Accessory :=
  {| acc_aid := acc_aid a; acc_category := cat; acc_name := acc_name a;
     acc_services := acc_services a |}.

Definition AddService (s : Service) (a : Accessory) : Accessory :=
  {| acc_aid := acc_aid a; acc_category := acc_category a; acc_name := acc_name a;
     acc_services := acc_services a ++ [s] |}.

(** [AddHAPService] attaches a raw HAP service; the accessory keeps both kinds
    in one ordered list. *)
Definition AddHAPService (s : Service) (a : Accessory) : Accessory := AddService s a.

(** ** Ghost trace of [CreateComponents]

    One entry per call that acts on the component list, the accessory list
    or an accessory, in program order. *)
Inductive AccTarget :=
| PriAcc                (* element 0 of accs *)
| LocalAcc (aid : Z).   (* the accessory being built, not yet in the list *)

Inductive Call :=
| CallSetCategory (t : AccTarget) (cat : HAPAccessoryCategory)
| CallAddService (t : AccTarget) (s : Service)
| CallAddHAPService (t : AccTarget) (s : Service)
| CallNewAccessory (aid : Z) (cat : HAPAccessoryCategory) (name : string)
| CallAccsPushBack (aid : Z)
| CallCreateHAPInput (id : Z) (cfg : mgos_config_in)
| CallCreateHAPSwitch (id : Z) (sw_cfg : mgos_config_sw) (in_cfg : mgos_config_in) (to_pri_acc : bool)
| CallCompsReverse
| CallCompsEmplaceBack (c : Component).

Record Graph := {
  g_comps : list Component;
  g_accs : list Accessory;
  g_calls : list Call;
}.

Definition call (c : Call) (g : Graph) : Graph :=
  {| g_comps := g_comps g; g_accs := g_accs g; g_calls := g_calls g ++ [c] |}.

Definition comps_emplace_back (c : Component) (g : Graph) : Graph :=
  {| g_comps := g_comps g ++ [c]; g_accs := g_accs g;
     g_calls := g_calls g ++ [CallCompsEmplaceBack c] |}.

Definition accs_push_back (a : Accessory) (g : Graph) : Graph :=
  {| g_comps := g_comps g; g_accs := g_accs g ++ [a];
     g_calls := g_calls g ++ [CallAccsPushBack (acc_aid a)] |}.

Definition comps_reverse (g : Graph) : Graph :=
  {| g_comps := reverse (g_comps g); g_accs := g_accs g;
     g_calls := g_calls g ++ [CallCompsReverse] |}.

(** Element 0 of [accs], which the source reads with [operator[]]: indexing
    an empty vector is undefined behaviour, modelled
    as [None]. *)
Definition pri_acc_update (f : Accessory -> Accessory) (g : Graph) : option Graph :=
  match g_accs g !! 0%nat with
  | None => None
  | Some pri_acc =>
      Some {| g_comps := g_comps g; g_accs := <[0%nat := f pri_acc]> (g_accs g);
              g_calls := g_calls g |}
  end.

(** Running a collaborator that receives [comps] and [accs] by pointer. *)
Definition run_collaborator
    (f : list Component * list Accessory -> list Component * list Accessory)
    (c : Call) (g : Graph) : Graph :=
  let r := f (g_comps g, g_accs g) in
  {| g_comps := fst r; g_accs := snd r; g_calls := g_calls g ++ [c] |}.

(** ** Peripheral registry lookups

    Modelled from the spec: [FindInput], [FindOutput] and [FindPM] are defined
    outside this file; the registry "provides lookup by logical index" and
    a lookup of an index that was never created returns "not found". *)
Definition FindInput (m : Machine) (id : Z) : option InputPin :=
  find (fun i => in_id i =? id) (m_inputs m).

Definition FindOutput (m : Machine) (id : Z) : option OutputPin :=
  find (fun o => out_id o =? id) (m_outputs m).

Definition FindPM (m : Machine) (id : Z) : option ADE7953PowerMeter :=
  find (fun p => pm_id p =? id) (m_pms m).

(** ** Collaborators of the resolver

    The service classes' [Init], the two "create HAP ..." helpers and the
    accessory-id base are declared in headers only; the resolver is embedded
    over any implementation of them.  The helpers receive [comps] and [accs]
    by pointer and are state transformers on that pair.  The source tests the
    pointer it gets from [new] against [nullptr]; whether that pointer is
    non-null is the [_allocated] answer. *)
Class Collaborators := {
  SHELLY_HAP_AID_BASE_WINDOW_COVERING : Z;
  WindowCovering_allocated : bool;
  WindowCovering_Init : WindowCovering -> Status;
  GarageDoorOpener_allocated : bool;
  GarageDoorOpener_Init : GarageDoorOpener -> Status;
  CreateHAPInput :
    Z -> mgos_config_in ->
    list Component * list Accessory -> list Component * list Accessory;
  CreateHAPSwitch :
    Z -> mgos_config_sw -> mgos_config_in -> bool ->
    list Component * list Accessory -> list Component * list Accessory;
}.

Section Resolver.
Context `{!Collaborators}.

Definition new_WindowCovering (reg : Machine) (id : Z) (cfg : mgos_config_wc) : WindowCovering :=
  {| wc_id := id;
     wc_in1 := FindInput reg 1; wc_in2 := FindInput reg 2;
     wc_out1 := FindOutput reg 1; wc_out2 := FindOutput reg 2;
     wc_pm1 := FindPM reg 1; wc_pm2 := FindPM reg 2;
     wc_cfg := cfg; wc_primary := false |}.

Definition new_GarageDoorOpener (reg : Machine) (id : Z) (cfg : mgos_config_gdo) : GarageDoorOpener :=
  {| gdo_id := id;
     gdo_in1 := FindInput reg 1; gdo_in2 := FindInput reg 2;
     gdo_out1 := FindOutput reg 1; gdo_out2 := FindOutput reg 2;
     gdo_cfg := cfg; gdo_primary := false |}.

Definition hap_input (id : Z) (cfg : mgos_config_in) (g : Graph) : Graph :=
  run_collaborator (CreateHAPInput id cfg) (CallCreateHAPInput id cfg) g.

Definition hap_switch (id : Z) (sw_cfg : mgos_config_sw) (in_cfg : mgos_config_in)
    (to_pri_acc : bool) (g : Graph) : Graph :=
  run_collaborator (CreateHAPSwitch id sw_cfg in_cfg to_pri_acc)
                   (CallCreateHAPSwitch id sw_cfg in_cfg to_pri_acc) g.

(** The [switch (im)] of the roller-shutter branch. *)
Definition wire_window_covering (cfg : mgos_sys_config) (id : Z) (wc : WindowCovering)
    (g : Graph) : option Graph :=
  let wc_cfg := wc1 cfg in
  match InMode_of_int (wc_in_mode wc_cfg) with
  | kSeparateMomentary | kSeparateToggle =>
      g ← pri_acc_update (SetCategory kHAPAccessoryCategory_WindowCoverings) g;
      let g := call (CallSetCategory PriAcc kHAPAccessoryCategory_WindowCoverings) g in
      g ← pri_acc_update (AddService (ServiceOf (CWindowCovering wc))) g;
      Some (call (CallAddService PriAcc (ServiceOf (CWindowCovering wc))) g)
  | kSingle | kDetached =>
      let aid := SHELLY_HAP_AID_BASE_WINDOW_COVERING + id in
      let acc := {| acc_aid := aid;
                    acc_category := kHAPAccessoryCategory_BridgedAccessory;
                    acc_name := wc_name wc_cfg; acc_services := [] |} in
      let g := call (CallNewAccessory aid kHAPAccessoryCategory_BridgedAccessory
                                      (wc_name wc_cfg)) g in
      let acc := AddHAPService mgos_hap_accessory_information_service acc in
      let g := call (CallAddHAPService (LocalAcc aid)
                                       mgos_hap_accessory_information_service) g in
      let acc := AddService (ServiceOf (CWindowCovering wc)) acc in
      let g := call (CallAddService (LocalAcc aid) (ServiceOf (CWindowCovering wc))) g in
      let g := accs_push_back acc g in
      match InMode_of_int (wc_in_mode wc_cfg) with
      | kDetached =>
          let g := hap_input 1 (in1 cfg) g in
          Some (hap_input 2 (in2 cfg) g)
      | _ =>
          if wc_swap_inputs wc_cfg
          then Some (hap_input 1 (in1 cfg) g)
          else Some (hap_input 2 (in2 cfg) g)
      end
  | kInMode_other _ => Some g
  end.

Definition CreateComponents (cfg : mgos_sys_config) (reg : Machine) (g : Graph)
    : option Graph :=
  (* Roller-shutter mode. *)
  if shelly_mode cfg =? 1 then
    let id := 1 in
    let wc := new_WindowCovering reg id (wc1 cfg) in
    if negb WindowCovering_allocated || negb (ok (WindowCovering_Init wc)) then Some g else
    let wc := set_primary_wc true wc in
    g ← wire_window_covering cfg id wc g;
    Some (comps_emplace_back (CWindowCovering wc) g)
  (* Garage door opener mode. *)
  else if shelly_mode cfg =? 2 then
    let gdo := new_GarageDoorOpener reg 1 (gdo1 cfg) in
    if negb GarageDoorOpener_allocated || negb (ok (GarageDoorOpener_Init gdo)) then Some g else
    let gdo := set_primary_gdo true gdo in
    g ← pri_acc_update (SetCategory kHAPAccessoryCategory_GarageDoorOpeners) g;
    let g := call (CallSetCategory PriAcc kHAPAccessoryCategory_GarageDoorOpeners) g in
    g ← pri_acc_update (AddService (ServiceOf (CGarageDoorOpener gdo))) g;
    let g := call (CallAddService PriAcc (ServiceOf (CGarageDoorOpener gdo))) g in
    Some (comps_emplace_back (CGarageDoorOpener gdo) g)
  else
    (* Use legacy layout if upgraded from an older version (pre-2.1).
       However, presence of detached inputs overrides it. *)
    let compat_20 := shelly_legacy_hap_layout cfg
                     && negb (sw_in_mode (sw1 cfg) =? 3)
                     && negb (sw_in_mode (sw2 cfg) =? 3) in
    if negb compat_20 then
      let g := hap_switch 1 (sw1 cfg) (in1 cfg) false g in
      Some (hap_switch 2 (sw2 cfg) (in2 cfg) false g)
    else
      let g := hap_switch 2 (sw2 cfg) (in2 cfg) true g in
      let g := hap_switch 1 (sw1 cfg) (in1 cfg) true g in
      Some (comps_reverse g).

End Resolver.

(** ** Observations on states and traces *)

Definition count {A} (p : A -> bool) (l : list A) : nat := length (List.filter p l).

Definition count_primary (cs : list Component) : nat := count primary cs.

Definition is_new_output (e : PEvent) : bool :=
  match e with EvNewOutputPin _ => true | _ => false end.

Definition is_input_init (e : PEvent) : bool :=
  match e with EvInputInit _ => true | _ => false end.

Definition is_add_handler (e : PEvent) : bool :=
  match e with EvAddHandler _ _ => true | _ => false end.

Definition is_bringup_log (e : PEvent) : bool :=
  match e with
  | EvLog LL_ERROR fmt (Some _) => String.eqb fmt "Failed to init ADE7953: %s"
  | _ => false
  end.

Definition sets_pri_category (c : Call) : bool :=
  match c with CallSetCategory PriAcc _ => true | _ => false end.

Definition is_new_accessory (c : Call) : bool :=
  match c with CallNewAccessory _ _ _ => true | _ => false end.

Definition is_comps_emplace_back (c : Call) : bool :=
  match c with CallCompsEmplaceBack _ => true | _ => false end.

(** The logical input indices handed to [hap::CreateHAPInput], in call order. *)
Definition hap_input_ids (t : list Call) : list Z :=
  omap (fun c => match c with CallCreateHAPInput id _ => Some id | _ => None end) t.

(** The two meters of [PowerMeterInit], for a chip handle [h]. *)
Definition pm1_of (h : mgos_ade7953) : ADE7953PowerMeter :=
  {| pm_id := 1; pm_ade7953 := h; pm_channel := 1 |}.

Definition pm2_of (h : mgos_ade7953) : ADE7953PowerMeter :=
  {| pm_id := 2; pm_ade7953 := h; pm_channel := 0 |}.

(** Whether bring-up goes through, read off the hardware's answers. *)
Definition bringup_ok `{!PowerHardware} : bool :=
  match mgos_ade7953_create ade7953_cfg with
  | None => false
  | Some h => ok (PowerMeter_Init (pm1_of h)) && ok (PowerMeter_Init (pm2_of h))
  end.

Definition with_legacy (b : bool) (cfg : mgos_sys_config) : mgos_sys_config :=
  {| shelly_mode := shelly_mode cfg; shelly_legacy_hap_layout := b;
     wc1 := wc1 cfg; gdo1 := gdo1 cfg; in1 := in1 cfg; in2 := in2 cfg;
     sw1 := sw1 cfg; sw2 := sw2 cfg |}.

(** A collaborator that appends exactly the component [c] to [comps]. *)
Definition appends_one
    (f : list Component * list Accessory -> list Component * list Accessory)
    (c : Component) : Prop :=
  forall cs accs, fst (f (cs, accs)) = cs ++ [c].

(** ** Concrete hardware and collaborators *)

(** Hardware whose chip driver comes up iff [chip_ok], and whose meters
    answer [st1] (meter 1) and [st2] (meter 2). *)
Definition hardware (chip_ok : bool) (st1 st2 : Status) : PowerHardware :=
  {| mgos_ade7953_create := fun c => if chip_ok then Some {| ade7953_cfg_of := c |} else None;
     PowerMeter_Init := fun p => if pm_id p =? 1 then st1 else st2 |}.

(** Modelled from the spec: [hap::CreateHAPInput] is declared in
    [shelly_hap_input.hpp] only.  It "exposes raw input state as separate
    pass-through accessories" and is an "append, never removes existing
    entries": one pass-through component and one bridged accessory carrying
    it are appended. *)
Definition model_CreateHAPInput (aid_base : Z) (id : Z) (cfg : mgos_config_in)
    (s : list Component * list Accessory) : list Component * list Accessory :=
  let c := CExternal {| ext_kind := HAPInput; ext_id := id; ext_primary := false |} in
  let acc := {| acc_aid := aid_base + id;
                acc_category := kHAPAccessoryCategory_BridgedAccessory;
                acc_name := in_payload cfg;
                acc_services := [mgos_hap_accessory_information_service; ServiceOf c] |} in
  (fst s ++ [c], snd s ++ [acc]).

(** Modelled from the spec: [CreateHAPSwitch] is declared in
    [shelly_main.hpp] only.  It constructs one switch component for the
    given index and appends it; with [to_pri_acc] the switch is "bound to the
    bridge-primary accessory", otherwise it gets a bridged accessory of its
    own, and a switch whose input is detached (sub-mode 3) additionally has
    its input exposed.  The spec does not say whether the helper marks the
    switch primary; the flag is left clear. *)
Definition model_CreateHAPSwitch (aid_base_sw aid_base_in : Z) (id : Z)
    (sw_cfg : mgos_config_sw) (in_cfg : mgos_config_in) (to_pri_acc : bool)
    (s : list Component * list Accessory) : list Component * list Accessory :=
  let c := CExternal {| ext_kind := HAPSwitch; ext_id := id; ext_primary := false |} in
  if to_pri_acc then
    (fst s ++ [c],
     match snd s !! 0%nat with
     | Some pri_acc => <[0%nat := AddService (ServiceOf c) pri_acc]> (snd s)
     | None => snd s
     end)
  else
    let acc := {| acc_aid := aid_base_sw + id;
                  acc_category := kHAPAccessoryCategory_BridgedAccessory;
                  acc_name := sw_payload sw_cfg;
                  acc_services := [mgos_hap_accessory_information_service; ServiceOf c] |} in
    let s := (fst s ++ [c], snd s ++ [acc]) in
    if sw_in_mode sw_cfg =? 3 then model_CreateHAPInput aid_base_in id in_cfg s else s.

(** Collaborators in which [new] always yields an object and the two [Init]
    calls answer [wc_st] and [gdo_st]. *)
Definition model_collaborators (wc_st gdo_st : Status) : Collaborators :=
  {| SHELLY_HAP_AID_BASE_WINDOW_COVERING := 1280;
     WindowCovering_allocated := true;
     WindowCovering_Init := fun _ => wc_st;
     GarageDoorOpener_allocated := true;
     GarageDoorOpener_Init := fun _ => gdo_st;
     CreateHAPInput := model_CreateHAPInput 1024;
     CreateHAPSwitch := model_CreateHAPSwitch 256 1024 |}.

(** A registry as [CreatePeripherals] leaves it on healthy hardware. *)
Definition healthy_registry : Machine :=
  @CreatePeripherals (hardware true Status_OK Status_OK) boot.

(** The accessory list the firmware hands to the resolver: the bridge itself. *)
Definition bridge_only : Graph :=
  {| g_comps := [];
     g_accs := [ {| acc_aid := 1; acc_category := kHAPAccessoryCategory_Bridges;
                    acc_name := "Shelly"; acc_services := [] |} ];
     g_calls := [] |}.

Definition sample_config (mode : Z) (in_mode : Z) (swap legacy : bool) : mgos_sys_config :=
  {| shelly_mode := mode; shelly_legacy_hap_layout := legacy;
     wc1 := {| wc_name := "Shutter"; wc_in_mode := in_mode; wc_swap_inputs := swap |};
     gdo1 := {| gdo_payload := "Garage" |};
     in1 := {| in_payload := "Input 1" |};
     in2 := {| in_payload := "Input 2" |};
     sw1 := {| sw_payload := "Switch 1"; sw_in_mode := 0 |};
     sw2 := {| sw_payload := "Switch 2"; sw_in_mode := 0 |} |}.

(** ** Further observations *)

Definition is_new_input (e : PEvent) : bool :=
  match e with EvNewInputPin _ => true | _ => false end.

(** The meters constructed, as (logical index, channel), in order. *)
Definition new_meters (t : list PEvent) : list (Z * Z) :=
  omap (fun e => match e with EvNewPowerMeter id ch => Some (id, ch) | _ => None end) t.

(** The logical indices of the meters whose [Init] was called, in order. *)
Definition meter_inits (t : list PEvent) : list Z :=
  omap (fun e => match e with EvPowerMeterInit id => Some id | _ => None end) t.

Definition is_hap_switch (c : Call) : bool :=
  match c with CallCreateHAPSwitch _ _ _ _ => true | _ => false end.

Definition is_hap_input (c : Call) : bool :=
  match c with CallCreateHAPInput _ _ => true | _ => false end.

Definition is_comps_reverse (c : Call) : bool :=
  match c with CallCompsReverse => true | _ => false end.

Definition with_mode (n : Z) (cfg : mgos_sys_config) : mgos_sys_config :=
  {| shelly_mode := n; shelly_legacy_hap_layout := shelly_legacy_hap_layout cfg;
     wc1 := wc1 cfg; gdo1 := gdo1 cfg; in1 := in1 cfg; in2 := in2 cfg;
     sw1 := sw1 cfg; sw2 := sw2 cfg |}.


(** A collaborator that only ever appends to [accs]. *)
Definition accs_append_only
    (f : list Component * list Accessory -> list Component * list Accessory) : Prop :=
  forall cs accs, exists extra, snd (f (cs, accs)) = accs ++ extra.

(** A collaborator that adds no primary component. *)
Definition adds_no_primary
    (f : list Component * list Accessory -> list Component * list Accessory) : Prop :=
  forall cs accs, count_primary (fst (f (cs, accs))) = count_primary cs.

(** A normal-mode configuration with the given switch input sub-modes. *)
Definition sample_switch_config (mode in_mode1 in_mode2 : Z) (legacy : bool)
    : mgos_sys_config :=
  {| shelly_mode := mode; shelly_legacy_hap_layout := legacy;
     wc1 := {| wc_name := "Shutter"; wc_in_mode := 0; wc_swap_inputs := false |};
     gdo1 := {| gdo_payload := "Garage" |};
     in1 := {| in_payload := "Input 1" |};
     in2 := {| in_payload := "Input 2" |};
     sw1 := {| sw_payload := "Switch 1"; sw_in_mode := in_mode1 |};
     sw2 := {| sw_payload := "Switch 2"; sw_in_mode := in_mode2 |} |}.

(** A graph that already holds one component besides the bridge accessory. *)
Definition bridge_with_component : Graph :=
  {| g_comps := [CExternal {| ext_kind := HAPInput; ext_id := 9; ext_primary := false |}];
     g_accs := g_accs bridge_only;
     g_calls := [] |}.

(** * Theorems *)

(** Splits on every answer the power hardware can give. *)
Ltac case_hardware :=
  unfold CreatePeripherals, PowerMeterInit, bringup_ok, pm1_of, pm2_of in *;
  cbn [set_s_ade7953 emit m_s_ade7953] in *;
  let h := fresh "h" in
  destruct (mgos_ade7953_create ade7953_cfg) as [h|] eqn:Hchip;
  [ destruct (PowerMeter_Init {| pm_id := 1; pm_ade7953 := h; pm_channel := 1 |}) eqn:Hpm1;
    [ destruct (PowerMeter_Init {| pm_id := 2; pm_ade7953 := h; pm_channel := 0 |}) eqn:Hpm2 | ]
  | ];
  cbn in *.

(** Brings a trace built by successive [emit]s into the form [old ++ new]. *)
Ltac flatten_trace := rewrite <- ?app_assoc; cbn [app].

Section PeripheralFacts.
Context `{!PowerHardware}.

(** C3.  Power-meter bring-up registers both meters or none.  If the chip
    driver cannot be created, [PowerMeterInit] returns the Unavailable error
    and the meter list is unchanged; if the driver is created but either
    meter's [Init] fails, that error is returned and the meter list is
    unchanged; only when the driver and both [Init]s succeed are meters
    registered, and then exactly the two of them. *)
Theorem PowerMeterInit_both_or_neither (m : Machine) :
  let r := PowerMeterInit m in
  match mgos_ade7953_create ade7953_cfg with
  | None =>
      fst r = Errorf STATUS_UNAVAILABLE "Failed to init ADE7953"
      /\ m_pms (snd r) = m_pms m
  | Some h =>
      if ok (PowerMeter_Init (pm1_of h)) then
        if ok (PowerMeter_Init (pm2_of h)) then
          fst r = Status_OK
          /\ m_pms (snd r) = m_pms m ++ [pm1_of h; pm2_of h]
          /\ length (m_pms (snd r)) = (length (m_pms m) + 2)%nat
        else
          fst r = PowerMeter_Init (pm2_of h) /\ ok (fst r) = false
          /\ m_pms (snd r) = m_pms m
      else
        fst r = PowerMeter_Init (pm1_of h) /\ ok (fst r) = false
        /\ m_pms (snd r) = m_pms m
  end.
Proof.
  case_hardware; repeat split; try reflexivity.
  - now rewrite <- app_assoc.
  - rewrite !length_app. cbn. lia.
Qed.

(** C9.  Whenever bring-up succeeds, the meter with logical index 1 reads
    ADE7953 channel 1 and the meter with logical index 2 reads channel 0;
    both are bound to the chip handle held in [s_ade7953], and they are
    registered in that order. *)
Theorem PowerMeterInit_channel_binding (m : Machine) :
  ok (fst (PowerMeterInit m)) = true ->
  exists h,
    m_s_ade7953 (snd (PowerMeterInit m)) = Some h
    /\ m_pms (snd (PowerMeterInit m)) =
         m_pms m ++ [ {| pm_id := 1; pm_ade7953 := h; pm_channel := 1 |};
                      {| pm_id := 2; pm_ade7953 := h; pm_channel := 0 |} ].
Proof.
  case_hardware; intros Hok; try discriminate Hok.
  eexists. split; [reflexivity | now rewrite <- app_assoc].
Qed.

(** C10.  When the chip driver is created but a meter's [Init] fails,
    [PowerMeterInit] returns that error and leaves the meter list as it was,
    while the global [s_ade7953] keeps the freshly created, non-null handle:
    the handle is not rolled back. *)
Theorem PowerMeterInit_no_handle_rollback (m : Machine) (h : mgos_ade7953) :
  mgos_ade7953_create ade7953_cfg = Some h ->
  ok (fst (PowerMeterInit m)) = false ->
  m_pms (snd (PowerMeterInit m)) = m_pms m
  /\ m_s_ade7953 (snd (PowerMeterInit m)) = Some h
  /\ fst (PowerMeterInit m) =
       (if ok (PowerMeter_Init (pm1_of h)) then PowerMeter_Init (pm2_of h)
        else PowerMeter_Init (pm1_of h)).
Proof.
  case_hardware; intros Hh Hok; try discriminate;
    injection Hh as <-; rewrite ?Hpm1, ?Hpm2; cbn; auto.
Qed.

(** C4.  In the events one run of [CreatePeripherals] adds to the trace, the
    two [OutputPin]s (index 1 on GPIO 4, index 2 on GPIO 15, each with
    on-value 1) are constructed first, no other output is constructed, and
    every input [Init] comes at a later position than every output
    construction -- whatever the power hardware answers. *)
Theorem outputs_before_input_init (m : Machine) :
  exists t,
    m_trace (CreatePeripherals m) = m_trace m ++ t
    /\ t !! 0%nat = Some (EvNewOutputPin {| out_id := 1; out_pin := 4; out_on_value := 1 |})
    /\ t !! 1%nat = Some (EvNewOutputPin {| out_id := 2; out_pin := 15; out_on_value := 1 |})
    /\ count is_new_output t = 2%nat
    /\ count is_input_init t = 2%nat
    /\ (forall i j o k,
          t !! i = Some (EvNewOutputPin o) -> t !! j = Some (EvInputInit k) -> (i < j)%nat)
    /\ m_outputs (CreatePeripherals m) =
         m_outputs m ++ [ {| out_id := 1; out_pin := 4; out_on_value := 1 |};
                          {| out_id := 2; out_pin := 15; out_on_value := 1 |} ].
Proof.
  case_hardware; eexists; (split; [flatten_trace; reflexivity |]);
    (repeat split; try reflexivity; try (now rewrite <- app_assoc));
    intros i j o k Hi Hj;
    do 2 (destruct j as [|j]; [discriminate Hj |]);
    (destruct i as [|[|i]]; [lia | lia |]);
    exfalso; cbn in Hi;
    repeat (destruct i as [|i]; [discriminate Hi | cbn in Hi]); discriminate Hi.
Qed.

(** C7.  [CreatePeripherals] never stops at a bring-up failure.  Whatever the
    power hardware answers, both outputs and both inputs are registered, the
    bring-up is attempted, its failure shows only as one logged error (none
    on success), and the [TempSensor] is constructed last and stored. *)
Theorem CreatePeripherals_survives_bringup_failure (m : Machine) :
  let m' := CreatePeripherals m in
  exists t,
    m_trace m' = m_trace m ++ t
    /\ last t = Some (EvNewTempSensor 0)
    /\ EvAde7953Create ∈ t
    /\ count is_bringup_log t = (if bringup_ok then 0 else 1)%nat
    /\ length (m_pms m') = (length (m_pms m) + (if bringup_ok then 2 else 0))%nat
    /\ m_sys_temp m' =
         Some {| ts_id := 0; ts_vref := FDec 33 (-1); ts_r := FDec 330000 (-1) |}
    /\ length (m_outputs m') = (length (m_outputs m) + 2)%nat
    /\ length (m_inputs m') = (length (m_inputs m) + 2)%nat.
Proof.
  case_hardware; eexists; (split; [flatten_trace; reflexivity |]);
    (split; [reflexivity |]);
    (split; [ do 7 apply list_elem_of_further; apply list_elem_of_here |]);
    repeat split; rewrite ?length_app; cbn; try reflexivity; lia.
Qed.

(** C8, as the code has it.  [CreatePeripherals] attaches exactly one
    handler, the reset sequence, and attaches it to input 1; input 2 is
    registered with no handler.  The integer bound into the handler is 4: the
    GPIO pin of output 1, not the logical index of an output. *)
Theorem reset_handler_on_input1_only (m : Machine) :
  let m' := CreatePeripherals m in
  exists i1 i2 o1 o2 t,
    m_inputs m' = m_inputs m ++ [i1; i2]
    /\ in_id i1 = 1 /\ in_handlers i1 = [HandleInputResetSequence 1 4]
    /\ in_id i2 = 2 /\ in_handlers i2 = []
    /\ m_trace m' = m_trace m ++ t
    /\ List.filter is_add_handler t = [EvAddHandler 1 (HandleInputResetSequence 1 4)]
    /\ m_outputs m' = m_outputs m ++ [o1; o2]
    /\ out_id o1 = 1 /\ out_pin o1 = 4
    /\ out_id o2 = 2 /\ out_pin o2 = 15.
Proof.
  case_hardware; do 5 eexists;
    (split; [rewrite <- app_assoc; reflexivity |]);
    do 4 (split; [reflexivity |]);
    (split; [flatten_trace; reflexivity |]);
    (split; [reflexivity |]);
    (split; [rewrite <- app_assoc; reflexivity |]);
    repeat split.
Qed.

End PeripheralFacts.

Lemma count_app {A} (p : A -> bool) (l1 l2 : list A) :
  count p (l1 ++ l2) = (count p l1 + count p l2)%nat.
Proof. unfold count. now rewrite List.filter_app, length_app. Qed.

Lemma count_primary_snoc (cs : list Component) (c : Component) :
  primary c = true -> count_primary (cs ++ [c]) = S (count_primary cs).
Proof.
  intros Hc. unfold count_primary. rewrite count_app.
  unfold count at 2. cbn. rewrite Hc. cbn. lia.
Qed.

Section ResolverFacts.
Context `{!Collaborators}.

(** C6.  A failed construction or [Init] aborts the branch before anything is
    touched: in roller-shutter mode when the window covering cannot be
    constructed or its [Init] fails, and in garage-door mode when the opener
    cannot be constructed or its [Init] fails, [CreateComponents] returns
    with the component list, the accessory list and every accessory exactly
    as they were, having made no call on any of them. *)
Theorem failed_init_leaves_graph_untouched
    (cfg : mgos_sys_config) (reg : Machine) (g : Graph) :
  (shelly_mode cfg = 1
   /\ (WindowCovering_allocated = false
       \/ ok (WindowCovering_Init (new_WindowCovering reg 1 (wc1 cfg))) = false))
  \/ (shelly_mode cfg = 2
      /\ (GarageDoorOpener_allocated = false
          \/ ok (GarageDoorOpener_Init (new_GarageDoorOpener reg 1 (gdo1 cfg))) = false)) ->
  CreateComponents cfg reg g = Some g.
Proof.
  unfold CreateComponents.
  intros [[Hmode [Hfail | Hfail]] | [Hmode [Hfail | Hfail]]];
    rewrite Hmode; cbn [Z.eqb Pos.eqb]; rewrite Hfail; cbn [negb orb];
    try reflexivity; now rewrite orb_true_r.
Qed.

(** C1.  Roller-shutter mode, window covering constructed and initialised.
    Sub-modes separate-momentary and separate-toggle: the covering is attached
    to accessory 0, no accessory is created and no input is exposed.
    Sub-modes single and detached: exactly one accessory is created, bridged,
    with the accessory-information service first and the covering second, and
    it is appended to the accessory list; then inputs 1 and 2 are exposed
    (detached), or input 1 alone if swap-inputs is set, else input 2 alone
    (single).  The covering is appended to the component list last. *)
Theorem roller_shutter_exposure (cfg : mgos_sys_config) (reg : Machine) (g : Graph) :
  shelly_mode cfg = 1 ->
  WindowCovering_allocated = true ->
  ok (WindowCovering_Init (new_WindowCovering reg 1 (wc1 cfg))) = true ->
  let wc := CWindowCovering (set_primary_wc true (new_WindowCovering reg 1 (wc1 cfg))) in
  let aid := SHELLY_HAP_AID_BASE_WINDOW_COVERING + 1 in
  let acc := {| acc_aid := aid;
                acc_category := kHAPAccessoryCategory_BridgedAccessory;
                acc_name := wc_name (wc1 cfg);
                acc_services := [mgos_hap_accessory_information_service; ServiceOf wc] |} in
  let s0 := (g_comps g, g_accs g ++ [acc]) in
  let created t :=
    List.filter is_new_accessory t =
      [CallNewAccessory aid kHAPAccessoryCategory_BridgedAccessory (wc_name (wc1 cfg))] in
  match InMode_of_int (wc_in_mode (wc1 cfg)) with
  | kSeparateMomentary | kSeparateToggle =>
      forall pri_acc rest, g_accs g = pri_acc :: rest ->
      exists g' t,
        CreateComponents cfg reg g = Some g'
        /\ g_calls g' = g_calls g ++ t
        /\ g_comps g' = g_comps g ++ [wc]
        /\ g_accs g' =
             AddService (ServiceOf wc)
               (SetCategory kHAPAccessoryCategory_WindowCoverings pri_acc) :: rest
        /\ List.filter is_new_accessory t = []
        /\ hap_input_ids t = []
  | kSingle =>
      let s := if wc_swap_inputs (wc1 cfg)
               then CreateHAPInput 1 (in1 cfg) s0
               else CreateHAPInput 2 (in2 cfg) s0 in
      exists g' t,
        CreateComponents cfg reg g = Some g'
        /\ g_calls g' = g_calls g ++ t
        /\ g_comps g' = fst s ++ [wc]
        /\ g_accs g' = snd s
        /\ created t
        /\ hap_input_ids t = (if wc_swap_inputs (wc1 cfg) then [1] else [2])
  | kDetached =>
      let s := CreateHAPInput 2 (in2 cfg) (CreateHAPInput 1 (in1 cfg) s0) in
      exists g' t,
        CreateComponents cfg reg g = Some g'
        /\ g_calls g' = g_calls g ++ t
        /\ g_comps g' = fst s ++ [wc]
        /\ g_accs g' = snd s
        /\ created t
        /\ hap_input_ids t = [1; 2]
  | kInMode_other _ => True
  end.
Proof.
  intros Hmode Halloc Hinit. unfold CreateComponents, wire_window_covering.
  rewrite Hmode, Halloc, Hinit. cbn [Z.eqb Pos.eqb negb orb].
  destruct (InMode_of_int (wc_in_mode (wc1 cfg))) eqn:Him; cbn zeta; try exact I.
  1, 2: intros pri_acc rest Haccs; unfold pri_acc_update; rewrite Haccs; cbn;
    eexists; eexists; (split; [reflexivity |]); cbn;
    (split; [flatten_trace; reflexivity |]); repeat split.
  - destruct (wc_swap_inputs (wc1 cfg)); cbn;
      eexists; eexists; (split; [reflexivity |]); cbn;
      (split; [flatten_trace; reflexivity |]); repeat split.
  - cbn. eexists; eexists; (split; [reflexivity |]); cbn;
      (split; [flatten_trace; reflexivity |]); repeat split;
      rewrite <- surjective_pairing; reflexivity.
Qed.

(** C2.  Normal mode, neither switch detached, starting from an empty
    component list, with a [CreateHAPSwitch] that appends one component per
    call.  With the legacy flag the helper is called for switch 2, then for
    switch 1, both with [to_pri_acc = true], and the list is then reversed;
    without it the helper is called for switch 1, then switch 2, both with
    [to_pri_acc = false].  Either way the resulting list is switch 1 followed
    by switch 2; the two runs differ only in the [to_pri_acc] handed to the
    helper. *)
Theorem legacy_layout_restores_order
    (cfg : mgos_sys_config) (reg : Machine) (g : Graph)
    (legacy1 legacy2 plain1 plain2 : Component) :
  shelly_mode cfg <> 1 -> shelly_mode cfg <> 2 ->
  sw_in_mode (sw1 cfg) <> 3 -> sw_in_mode (sw2 cfg) <> 3 ->
  g_comps g = [] ->
  appends_one (CreateHAPSwitch 1 (sw1 cfg) (in1 cfg) true) legacy1 ->
  appends_one (CreateHAPSwitch 2 (sw2 cfg) (in2 cfg) true) legacy2 ->
  appends_one (CreateHAPSwitch 1 (sw1 cfg) (in1 cfg) false) plain1 ->
  appends_one (CreateHAPSwitch 2 (sw2 cfg) (in2 cfg) false) plain2 ->
  exists gl gp,
    CreateComponents (with_legacy true cfg) reg g = Some gl
    /\ CreateComponents (with_legacy false cfg) reg g = Some gp
    /\ g_calls gl = g_calls g ++ [CallCreateHAPSwitch 2 (sw2 cfg) (in2 cfg) true;
                                  CallCreateHAPSwitch 1 (sw1 cfg) (in1 cfg) true;
                                  CallCompsReverse]
    /\ g_calls gp = g_calls g ++ [CallCreateHAPSwitch 1 (sw1 cfg) (in1 cfg) false;
                                  CallCreateHAPSwitch 2 (sw2 cfg) (in2 cfg) false]
    /\ g_comps gl = [legacy1; legacy2]
    /\ g_comps gp = [plain1; plain2].
Proof.
  intros Hm1 Hm2 Hs1 Hs2 Hempty Hl1 Hl2 Hp1 Hp2.
  unfold CreateComponents. cbn [with_legacy shelly_mode shelly_legacy_hap_layout
                                 sw1 sw2 in1 in2 andb negb].
  apply Z.eqb_neq in Hm1, Hm2, Hs1, Hs2. rewrite Hm1, Hm2, Hs1, Hs2. cbn [negb andb].
  eexists; eexists. do 2 (split; [reflexivity |]).
  unfold hap_switch, run_collaborator, comps_reverse; cbn.
  split; [flatten_trace; reflexivity |].
  split; [flatten_trace; reflexivity |].
  unfold appends_one in Hl1, Hl2, Hp1, Hp2. rewrite Hempty. split.
  - rewrite Hl1, Hl2. reflexivity.
  - rewrite Hp2, Hp1. reflexivity.
Qed.

(** C5, as the code has it.  In roller-shutter and garage-door mode, when
    construction or [Init] fails the graph is left as it was: no component, primary or not,
    is added and no category is set.  When both succeed the resolver
    appends exactly one component, last in the list, and that component (the
    window covering, resp. the garage door opener) has [primary = true].  In
    garage-door mode and in the roller-shutter sub-modes separate-momentary
    and separate-toggle nothing else is appended, and the category of
    accessory 0 is set exactly once, to the category of that component.  In
    every other roller-shutter sub-mode the resolver never sets the category
    of accessory 0. *)
Theorem primary_and_category_by_branch
    (cfg : mgos_sys_config) (reg : Machine) (g g' : Graph) :
  shelly_mode cfg = 1 \/ shelly_mode cfg = 2 ->
  CreateComponents cfg reg g = Some g' ->
  let wc := CWindowCovering (set_primary_wc true (new_WindowCovering reg 1 (wc1 cfg))) in
  let gdo := CGarageDoorOpener (set_primary_gdo true (new_GarageDoorOpener reg 1 (gdo1 cfg))) in
  let init_ok :=
    if shelly_mode cfg =? 1
    then WindowCovering_allocated
         && ok (WindowCovering_Init (new_WindowCovering reg 1 (wc1 cfg)))
    else GarageDoorOpener_allocated
         && ok (GarageDoorOpener_Init (new_GarageDoorOpener reg 1 (gdo1 cfg))) in
  let on_pri_acc :=
    (shelly_mode cfg =? 2)
    || match InMode_of_int (wc_in_mode (wc1 cfg)) with
       | kSeparateMomentary | kSeparateToggle => true
       | _ => false
       end in
  let c := if shelly_mode cfg =? 1 then wc else gdo in
  let cat := if shelly_mode cfg =? 1
             then kHAPAccessoryCategory_WindowCoverings
             else kHAPAccessoryCategory_GarageDoorOpeners in
  exists t,
    g_calls g' = g_calls g ++ t
    /\ if init_ok then
         exists cs,
           g_comps g' = cs ++ [c]
           /\ primary c = true
           /\ List.filter is_comps_emplace_back t = [CallCompsEmplaceBack c]
           /\ count_primary (g_comps g') = S (count_primary cs)
           /\ if on_pri_acc then
                cs = g_comps g
                /\ List.filter sets_pri_category t = [CallSetCategory PriAcc cat]
                /\ acc_category <$> g_accs g' !! 0%nat = Some cat
              else List.filter sets_pri_category t = []
       else g' = g /\ t = [].
Proof.
  intros Hmode. unfold CreateComponents, wire_window_covering.
  destruct Hmode as [Hmode | Hmode]; rewrite Hmode; cbn [Z.eqb Pos.eqb orb].
  - destruct WindowCovering_allocated;
      destruct (ok (WindowCovering_Init _)) eqn:Hinit; cbn [negb orb andb].
    2, 3, 4: intros [= <-]; exists []; now rewrite app_nil_r.
    destruct (InMode_of_int (wc_in_mode (wc1 cfg))) eqn:Him;
      try (unfold pri_acc_update; destruct (g_accs g) as [|pri_acc rest] eqn:Haccs;
           [discriminate |]);
      try destruct (wc_swap_inputs (wc1 cfg));
      cbn; intros [= <-]; cbn;
      eexists; (split; [flatten_trace; reflexivity |]);
      eexists; (split; [reflexivity |]);
      (split; [reflexivity |]); (split; [reflexivity |]);
      (split; [now apply count_primary_snoc |]);
      repeat split.
  - destruct GarageDoorOpener_allocated;
      destruct (ok (GarageDoorOpener_Init _)) eqn:Hinit; cbn [negb orb andb].
    2, 3, 4: intros [= <-]; exists []; now rewrite app_nil_r.
    unfold pri_acc_update. destruct (g_accs g) as [|pri_acc rest] eqn:Haccs;
      [discriminate |].
    cbn. intros [= <-]. cbn.
    eexists; (split; [flatten_trace; reflexivity |]).
    eexists; (split; [reflexivity |]).
    (split; [reflexivity |]). (split; [reflexivity |]).
    (split; [now apply count_primary_snoc |]).
    repeat split.
Qed.

End ResolverFacts.

(** * Further properties of the peripheral factory *)

(** Decides a position fact about a concrete trace by running through the
    positions of [i]. *)
Ltac positions H i :=
  repeat (destruct i as [|i]; cbn in H; try discriminate H).

Section PeripheralMore.
Context `{!PowerHardware}.

(** X1.  [PowerMeterInit] touches nothing but the meter list, the chip handle
    and the log: inputs, outputs and the temperature sensor are as before,
    the meters already registered stay in place, and [s_ade7953] always ends
    up holding exactly what [mgos_ade7953_create] answered -- whatever it
    held before, so a failed creation leaves it null. *)
Theorem PowerMeterInit_frame (m : Machine) :
  let m' := snd (PowerMeterInit m) in
  m_inputs m' = m_inputs m
  /\ m_outputs m' = m_outputs m
  /\ m_sys_temp m' = m_sys_temp m
  /\ m_s_ade7953 m' = mgos_ade7953_create ade7953_cfg
  /\ exists extra, m_pms m' = m_pms m ++ extra.
Proof.
  case_hardware; repeat split; try (exists []; now rewrite app_nil_r).
  eexists. now rewrite <- app_assoc.
Qed.

(** X2.  [PowerMeterInit] stops at the first failure.  The chip driver is
    created exactly once; if that fails no meter is constructed; if meter 1's
    [Init] fails, meter 2 is never constructed nor initialised; otherwise
    both meters are constructed and initialised, each once, meter 1 first. *)
Theorem PowerMeterInit_stops_at_first_failure (m : Machine) :
  exists t,
    m_trace (snd (PowerMeterInit m)) = m_trace m ++ t
    /\ List.filter (fun e => match e with EvAde7953Create => true | _ => false end) t
       = [EvAde7953Create]
    /\ match mgos_ade7953_create ade7953_cfg with
       | None => new_meters t = [] /\ meter_inits t = []
       | Some h =>
           if ok (PowerMeter_Init (pm1_of h))
           then new_meters t = [(1, 1); (2, 0)] /\ meter_inits t = [1; 2]
           else new_meters t = [(1, 1)] /\ meter_inits t = [1]
       end.
Proof.
  case_hardware; eexists; (split; [flatten_trace; reflexivity |]);
    repeat split.
Qed.


(** X4.  In one run of [CreatePeripherals] every [OutputPin] is constructed
    before any [InputPin] is constructed, as the comment in the source
    demands for the output on GPIO 15 and the input on GPIO 13. *)
Theorem outputs_before_input_construction (m : Machine) :
  exists t,
    m_trace (CreatePeripherals m) = m_trace m ++ t
    /\ count is_new_input t = 2%nat
    /\ forall i j o k,
         t !! i = Some (EvNewOutputPin o) -> t !! j = Some (EvNewInputPin k) ->
         (i < j)%nat.
Proof.
  case_hardware; eexists; (split; [flatten_trace; reflexivity |]);
    (split; [reflexivity |]);
    intros i j o k Hi Hj; positions Hi i; positions Hj j; lia.
Qed.

(** X5.  Each input is constructed, then initialised, and input 1 is
    completely set up before input 2 is constructed; the reset handler is
    attached to input 1 before that input's [Init] runs. *)
Theorem input_setup_order (m : Machine) :
  exists t,
    m_trace (CreatePeripherals m) = m_trace m ++ t
    /\ (forall i j k,
          t !! i = Some (EvNewInputPin k) -> t !! j = Some (EvInputInit k) -> (i < j)%nat)
    /\ (forall i j k h,
          t !! i = Some (EvAddHandler k h) -> t !! j = Some (EvInputInit k) -> (i < j)%nat)
    /\ (forall i j,
          t !! i = Some (EvInputInit 1) -> t !! j = Some (EvNewInputPin 2) -> (i < j)%nat).
Proof.
  case_hardware; eexists; (split; [flatten_trace; reflexivity |]);
    (split; [| split];
     [ intros i j k Hi Hj; positions Hi i; positions Hj j;
       try lia; injection Hi as <-; discriminate Hj
     | intros i j k h' Hi Hj; positions Hi i; positions Hj j;
       try lia; injection Hi as <- _; discriminate Hj
     | intros i j Hi Hj; positions Hi i; positions Hj j; lia ]).
Qed.

End PeripheralMore.

(** * Further properties of the resolver *)

Section ResolverMore.
Context `{!Collaborators}.


(** X7.  The three modes are mutually exclusive.  In roller-shutter and
    garage-door mode [CreateHAPSwitch] is never called.  In every other mode
    the resolver does nothing but call [CreateHAPSwitch] twice and possibly
    reverse the component list: it sets no category, attaches no service,
    creates no accessory, exposes no input and appends no component of its
    own. *)
Theorem modes_are_exclusive
    (cfg : mgos_sys_config) (reg : Machine) (g g' : Graph) :
  CreateComponents cfg reg g = Some g' ->
  exists t,
    g_calls g' = g_calls g ++ t
    /\ if (shelly_mode cfg =? 1) || (shelly_mode cfg =? 2)
       then count is_hap_switch t = 0%nat
       else count is_hap_switch t = 2%nat
            /\ List.filter (fun c => negb (is_hap_switch c || is_comps_reverse c)) t = [].
Proof.
  unfold CreateComponents, wire_window_covering, pri_acc_update.
  destruct (shelly_mode cfg =? 1); [| destruct (shelly_mode cfg =? 2)]; cbn [orb].
  - destruct (negb _ || negb _).
    { intros [= <-]. exists []. now rewrite app_nil_r. }
    destruct (InMode_of_int (wc_in_mode (wc1 cfg)));
      try (destruct (g_accs g) as [|pri_acc rest]; [discriminate |]);
      try destruct (wc_swap_inputs (wc1 cfg));
      cbn; intros [= <-]; cbn;
      eexists; (split; [flatten_trace; reflexivity |]); reflexivity.
  - destruct (negb _ || negb _).
    { intros [= <-]. exists []. now rewrite app_nil_r. }
    destruct (g_accs g) as [|pri_acc rest]; [discriminate |].
    cbn. intros [= <-]. cbn.
    eexists; (split; [flatten_trace; reflexivity |]); reflexivity.
  - destruct (negb _); intros [= <-]; cbn;
      eexists; (split; [flatten_trace; reflexivity |]); split; reflexivity.
Qed.

(** X8.  The mode is only ever compared with 1 and 2: any other value,
    negative ones included, is treated exactly like normal mode (0). *)
Theorem other_modes_fall_through_to_normal
    (cfg : mgos_sys_config) (reg : Machine) (g : Graph) :
  shelly_mode cfg <> 1 -> shelly_mode cfg <> 2 ->
  CreateComponents cfg reg g = CreateComponents (with_mode 0 cfg) reg g.
Proof.
  intros H1 H2. apply Z.eqb_neq in H1, H2.
  unfold CreateComponents. rewrite H1, H2. reflexivity.
Qed.

(** X9.  The legacy-layout flag is ignored in roller-shutter mode, in
    garage-door mode, and whenever either switch input is detached
    (sub-mode 3): the run with the flag set is the run with the flag
    clear. *)
Theorem legacy_flag_ignored
    (cfg : mgos_sys_config) (reg : Machine) (g : Graph) :
  shelly_mode cfg = 1 \/ shelly_mode cfg = 2
  \/ sw_in_mode (sw1 cfg) = 3 \/ sw_in_mode (sw2 cfg) = 3 ->
  CreateComponents (with_legacy true cfg) reg g
  = CreateComponents (with_legacy false cfg) reg g.
Proof.
  unfold CreateComponents.
  cbn [with_legacy shelly_mode shelly_legacy_hap_layout sw1 sw2 in1 in2 wc1 gdo1].
  intros [Hm | [Hm | [Hs | Hs]]].
  - rewrite Hm. reflexivity.
  - rewrite Hm. reflexivity.
  - rewrite Hs. destruct (shelly_mode cfg =? 1), (shelly_mode cfg =? 2); reflexivity.
  - rewrite Hs. destruct (shelly_mode cfg =? 1), (shelly_mode cfg =? 2);
      try reflexivity.
    now rewrite andb_false_r.
Qed.

(** X10.  Roller-shutter mode with an input sub-mode outside 0..3: no case of
    the [switch] matches, so the covering -- marked primary -- is appended to
    the component list without being attached to any accessory; the
    accessory list is left as it was, and may even be empty. *)
Theorem unknown_sub_mode_attaches_nothing
    (cfg : mgos_sys_config) (reg : Machine) (g : Graph) :
  shelly_mode cfg = 1 ->
  WindowCovering_allocated = true ->
  ok (WindowCovering_Init (new_WindowCovering reg 1 (wc1 cfg))) = true ->
  wc_in_mode (wc1 cfg) < 0 \/ 3 < wc_in_mode (wc1 cfg) ->
  let wc := CWindowCovering (set_primary_wc true (new_WindowCovering reg 1 (wc1 cfg))) in
  CreateComponents cfg reg g =
    Some {| g_comps := g_comps g ++ [wc];
            g_accs := g_accs g;
            g_calls := g_calls g ++ [CallCompsEmplaceBack wc] |}.
Proof.
  intros Hmode Halloc Hinit Hrange.
  unfold CreateComponents, wire_window_covering, InMode_of_int.
  rewrite Hmode, Halloc, Hinit. cbn [Z.eqb Pos.eqb negb orb].
  assert (H0 : (wc_in_mode (wc1 cfg) =? 0) = false) by (apply Z.eqb_neq; lia).
  assert (H1 : (wc_in_mode (wc1 cfg) =? 1) = false) by (apply Z.eqb_neq; lia).
  assert (H2 : (wc_in_mode (wc1 cfg) =? 2) = false) by (apply Z.eqb_neq; lia).
  assert (H3 : (wc_in_mode (wc1 cfg) =? 3) = false) by (apply Z.eqb_neq; lia).
  rewrite H0, H1, H2, H3. reflexivity.
Qed.

(** X11.  [std::reverse] acts on the whole component list.  In the legacy
    layout, components that were in the list before the call come out
    reversed, behind the two switches; in the plain layout they stay in
    front, in their order. *)
Theorem legacy_reverse_moves_earlier_components
    (cfg : mgos_sys_config) (reg : Machine) (g : Graph)
    (legacy1 legacy2 plain1 plain2 : Component) :
  shelly_mode cfg <> 1 -> shelly_mode cfg <> 2 ->
  sw_in_mode (sw1 cfg) <> 3 -> sw_in_mode (sw2 cfg) <> 3 ->
  appends_one (CreateHAPSwitch 1 (sw1 cfg) (in1 cfg) true) legacy1 ->
  appends_one (CreateHAPSwitch 2 (sw2 cfg) (in2 cfg) true) legacy2 ->
  appends_one (CreateHAPSwitch 1 (sw1 cfg) (in1 cfg) false) plain1 ->
  appends_one (CreateHAPSwitch 2 (sw2 cfg) (in2 cfg) false) plain2 ->
  exists gl gp,
    CreateComponents (with_legacy true cfg) reg g = Some gl
    /\ CreateComponents (with_legacy false cfg) reg g = Some gp
    /\ g_comps gl = [legacy1; legacy2] ++ reverse (g_comps g)
    /\ g_comps gp = g_comps g ++ [plain1; plain2].
Proof.
  intros Hm1 Hm2 Hs1 Hs2 Hl1 Hl2 Hp1 Hp2.
  unfold CreateComponents. cbn [with_legacy shelly_mode shelly_legacy_hap_layout
                                 sw1 sw2 in1 in2 andb negb].
  apply Z.eqb_neq in Hm1, Hm2, Hs1, Hs2. rewrite Hm1, Hm2, Hs1, Hs2. cbn [negb andb].
  eexists; eexists. do 2 (split; [reflexivity |]).
  unfold hap_switch, run_collaborator, comps_reverse, appends_one in *.
  cbn [g_comps g_accs fst snd]. split.
  - rewrite Hl1, Hl2, !reverse_app. reflexivity.
  - rewrite Hp2, Hp1, <- app_assoc. reflexivity.
Qed.

(** X12.  Garage-door mode past the guard, on a non-empty accessory list:
    the resolver creates no accessory and calls neither helper; every
    accessory but the first is untouched; accessory 0 keeps its id, its name
    and the services it had, gets the garage-door category and the opener's
    service behind the existing ones; the opener, marked primary, is appended
    to the components. *)
Theorem garage_door_frame
    (cfg : mgos_sys_config) (reg : Machine) (g : Graph)
    (pri_acc : Accessory) (rest : list Accessory) :
  shelly_mode cfg = 2 ->
  GarageDoorOpener_allocated = true ->
  ok (GarageDoorOpener_Init (new_GarageDoorOpener reg 1 (gdo1 cfg))) = true ->
  g_accs g = pri_acc :: rest ->
  let gdo := CGarageDoorOpener
               (set_primary_gdo true (new_GarageDoorOpener reg 1 (gdo1 cfg))) in
  exists g' t,
    CreateComponents cfg reg g = Some g'
    /\ g_calls g' = g_calls g ++ t
    /\ List.filter (fun c => is_new_accessory c || is_hap_input c || is_hap_switch c) t = []
    /\ g_comps g' = g_comps g ++ [gdo]
    /\ g_accs g' =
         {| acc_aid := acc_aid pri_acc;
            acc_category := kHAPAccessoryCategory_GarageDoorOpeners;
            acc_name := acc_name pri_acc;
            acc_services := acc_services pri_acc ++ [ServiceOf gdo] |} :: rest.
Proof.
  intros Hmode Halloc Hinit Haccs. unfold CreateComponents, pri_acc_update.
  rewrite Hmode, Halloc, Hinit, Haccs. cbn.
  eexists; eexists. split; [reflexivity |]. cbn.
  split; [flatten_trace; reflexivity |]. repeat split.
Qed.

(** X13.  Roller-shutter mode past the guard, sub-mode single or detached,
    with a [CreateHAPInput] that only appends to the accessory list: every
    accessory that was in the list is still there, at its position and
    unchanged -- the bridge accessory keeps its category -- and the
    covering's own accessory sits right behind them. *)
Theorem bridged_covering_keeps_existing_accessories
    (cfg : mgos_sys_config) (reg : Machine) (g : Graph) :
  shelly_mode cfg = 1 ->
  WindowCovering_allocated = true ->
  ok (WindowCovering_Init (new_WindowCovering reg 1 (wc1 cfg))) = true ->
  wc_in_mode (wc1 cfg) = 2 \/ wc_in_mode (wc1 cfg) = 3 ->
  (forall id c, accs_append_only (CreateHAPInput id c)) ->
  let wc := CWindowCovering (set_primary_wc true (new_WindowCovering reg 1 (wc1 cfg))) in
  let acc := {| acc_aid := SHELLY_HAP_AID_BASE_WINDOW_COVERING + 1;
                acc_category := kHAPAccessoryCategory_BridgedAccessory;
                acc_name := wc_name (wc1 cfg);
                acc_services := [mgos_hap_accessory_information_service; ServiceOf wc] |} in
  exists g' extra,
    CreateComponents cfg reg g = Some g'
    /\ g_accs g' = g_accs g ++ acc :: extra.
Proof.
  intros Hmode Halloc Hinit Him Happ.
  unfold CreateComponents, wire_window_covering, InMode_of_int.
  rewrite Hmode, Halloc, Hinit. cbn [Z.eqb Pos.eqb negb orb].
  unfold accs_append_only in Happ.
  destruct Him as [Him | Him]; rewrite Him; cbn [Z.eqb Pos.eqb];
    unfold hap_input, run_collaborator, accs_push_back, call, comps_emplace_back;
    cbn [g_comps g_accs g_calls AddService AddHAPService acc_services acc_aid
         acc_category acc_name app mbind option_bind].
  - destruct (wc_swap_inputs (wc1 cfg)); cbn;
      match goal with
      | |- context [CreateHAPInput ?id ?c (?cs, ?accs)] =>
          destruct (Happ id c cs accs) as [extra Hextra]
      end;
      eexists; exists extra; (split; [reflexivity |]); cbn;
      rewrite Hextra, <- app_assoc; reflexivity.
  - cbn.
    destruct (Happ 1 (in1 cfg) (g_comps g)
                (g_accs g ++ [ {| acc_aid := SHELLY_HAP_AID_BASE_WINDOW_COVERING + 1;
                                  acc_category := kHAPAccessoryCategory_BridgedAccessory;
                                  acc_name := wc_name (wc1 cfg);
                                  acc_services :=
                                    [mgos_hap_accessory_information_service;
                                     ServiceOf (CWindowCovering
                                       (set_primary_wc true
                                          (new_WindowCovering reg 1 (wc1 cfg))))] |} ]))
      as [extra1 H1].
    destruct (CreateHAPInput 1 (in1 cfg) _) as [cs1 accs1] eqn:E1.
    cbn in H1. destruct (Happ 2 (in2 cfg) cs1 accs1) as [extra2 H2].
    eexists; exists (extra1 ++ extra2). split; [reflexivity |]. cbn.
    rewrite H2, H1, <- !app_assoc. reflexivity.
Qed.

(** X14.  Exactly one primary component.  Starting from a component list
    with no primary component, a run in roller-shutter or garage-door mode
    that gets past the guard ends with exactly one primary component,
    provided [CreateHAPInput] adds none. *)
Theorem one_primary_after_service_branch
    (cfg : mgos_sys_config) (reg : Machine) (g g' : Graph) :
  (shelly_mode cfg = 1
   /\ WindowCovering_allocated = true
   /\ ok (WindowCovering_Init (new_WindowCovering reg 1 (wc1 cfg))) = true)
  \/ (shelly_mode cfg = 2
      /\ GarageDoorOpener_allocated = true
      /\ ok (GarageDoorOpener_Init (new_GarageDoorOpener reg 1 (gdo1 cfg))) = true) ->
  (forall id c, adds_no_primary (CreateHAPInput id c)) ->
  count_primary (g_comps g) = 0%nat ->
  CreateComponents cfg reg g = Some g' ->
  count_primary (g_comps g') = 1%nat.
Proof.
  intros Hbranch Hnone Hzero. unfold adds_no_primary in Hnone.
  unfold CreateComponents, wire_window_covering, pri_acc_update.
  destruct Hbranch as [(Hmode & Halloc & Hinit) | (Hmode & Halloc & Hinit)];
    rewrite Hmode, Halloc, Hinit; cbn [Z.eqb Pos.eqb negb orb].
  - destruct (InMode_of_int (wc_in_mode (wc1 cfg)));
      try (destruct (g_accs g) as [|pri_acc rest]; [discriminate |]);
      try destruct (wc_swap_inputs (wc1 cfg));
      cbn [mbind option_bind lookup list_lookup]; intros [= <-];
      unfold comps_emplace_back, hap_input, run_collaborator, accs_push_back, call;
      cbn [g_comps g_accs];
      rewrite count_primary_snoc by reflexivity;
      rewrite ?Hnone; now rewrite Hzero.
  - destruct (g_accs g) as [|pri_acc rest]; [discriminate |].
    cbn [mbind option_bind lookup list_lookup]. intros [= <-].
    unfold comps_emplace_back, call; cbn [g_comps g_accs].
    rewrite count_primary_snoc by reflexivity. now rewrite Hzero.
Qed.

End ResolverMore.

(** * The factory and the resolver together *)

Section FactoryThenResolver.
Context `{!PowerHardware}.

(** X15.  On registries that were empty before [CreatePeripherals] ran, the
    window covering the resolver constructs is bound to input 1 on GPIO 13,
    input 2 on GPIO 5, output 1 on GPIO 4 and output 2 on GPIO 15, whatever
    the power hardware answered; its two meters are present, on channels 1
    and 0, exactly when bring-up went through, and are null pointers
    otherwise.  (Lookups are by logical index, first match.) *)
Theorem covering_binds_factory_peripherals (m : Machine) (c : mgos_config_wc) :
  m_inputs m = [] -> m_outputs m = [] -> m_pms m = [] ->
  let wc := new_WindowCovering (CreatePeripherals m) 1 c in
  in_pin <$> wc_in1 wc = Some 13
  /\ in_pin <$> wc_in2 wc = Some 5
  /\ out_pin <$> wc_out1 wc = Some 4
  /\ out_pin <$> wc_out2 wc = Some 15
  /\ pm_channel <$> wc_pm1 wc = (if bringup_ok then Some 1 else None)
  /\ pm_channel <$> wc_pm2 wc = (if bringup_ok then Some 0 else None).
Proof.
  intros Hin Hout Hpm. unfold new_WindowCovering, FindInput, FindOutput, FindPM.
  case_hardware; rewrite Hin, Hout, Hpm; cbn; repeat split.
Qed.

End FactoryThenResolver.

(** * Concrete runs *)

(** C9 at boot on healthy hardware: both meters are registered, index 1 on
    channel 1 and index 2 on channel 0. *)
Lemma PowerMeterInit_channel_binding_witness :
  ok (fst (@PowerMeterInit (hardware true Status_OK Status_OK) boot)) = true
  /\ exists h,
       m_s_ade7953 (snd (@PowerMeterInit (hardware true Status_OK Status_OK) boot)) = Some h
       /\ m_pms (snd (@PowerMeterInit (hardware true Status_OK Status_OK) boot)) =
            [] ++ [ {| pm_id := 1; pm_ade7953 := h; pm_channel := 1 |};
                    {| pm_id := 2; pm_ade7953 := h; pm_channel := 0 |} ].
Proof.
  split; [reflexivity |].
  apply (@PowerMeterInit_channel_binding (hardware true Status_OK Status_OK) boot).
  reflexivity.
Defined.

(** C10 at boot when the chip comes up and meter 2 fails to initialise: no
    meter is registered, yet [s_ade7953] holds the handle. *)
Lemma PowerMeterInit_no_handle_rollback_witness :
  let hw := hardware true Status_OK (Errorf (STATUS_error 1) "pm2") in
  let h := {| ade7953_cfg_of := ade7953_cfg |} in
  @mgos_ade7953_create hw ade7953_cfg = Some h
  /\ ok (fst (@PowerMeterInit hw boot)) = false
  /\ m_pms (snd (@PowerMeterInit hw boot)) = []
  /\ m_s_ade7953 (snd (@PowerMeterInit hw boot)) = Some h.
Proof.
  intros hw h. split; [reflexivity |]. split; [reflexivity |].
  destruct (@PowerMeterInit_no_handle_rollback hw boot h eq_refl eq_refl)
    as (Hpms & Hhandle & _).
  split; [exact Hpms | exact Hhandle].
Defined.

(** C8 as stated fails on the code: after [CreatePeripherals] the handler on
    input 1 is bound to the integer 4, and no registered output has logical
    index 4 (the outputs are 1 and 2; 4 is the GPIO pin of output 1). *)
Lemma reset_handler_argument_is_a_pin :
  let m' := @CreatePeripherals (hardware true Status_OK Status_OK) boot in
  (exists i, m_inputs m' !! 0%nat = Some i
             /\ in_id i = 1
             /\ in_handlers i = [HandleInputResetSequence 1 4])
  /\ ~ (exists o, o ∈ m_outputs m' /\ out_id o = 4)
  /\ (exists o, o ∈ m_outputs m' /\ out_pin o = 4 /\ out_id o = 1).
Proof.
  cbn. split; [| split].
  - eexists. repeat split.
  - intros (o & Ho & Hid).
    apply list_elem_of_In in Ho. cbn in Ho.
    destruct Ho as [<- | [<- | []]]; discriminate Hid.
  - eexists. split; [apply list_elem_of_here |]. split; reflexivity.
Qed.

(** C6 on the bridge-only graph: a failing window-covering [Init] in
    roller-shutter mode, and a failing opener [Init] in garage-door mode, both
    return the graph untouched. *)
Lemma failed_init_leaves_graph_untouched_witness :
  let bad := Errorf (STATUS_error 1) "init" in
  @CreateComponents (model_collaborators bad Status_OK)
     (sample_config 1 0 false false) healthy_registry bridge_only = Some bridge_only
  /\ @CreateComponents (model_collaborators Status_OK bad)
       (sample_config 2 0 false false) healthy_registry bridge_only = Some bridge_only.
Proof.
  intros bad. split.
  - apply (@failed_init_leaves_graph_untouched (model_collaborators bad Status_OK)).
    left. split; [reflexivity | right; reflexivity].
  - apply (@failed_init_leaves_graph_untouched (model_collaborators Status_OK bad)).
    right. split; [reflexivity | right; reflexivity].
Defined.

(** C1 on the bridge-only graph, sub-mode single without swap-inputs: one
    accessory is created and input 2, and only input 2, is exposed. *)
Lemma roller_shutter_exposure_witness :
  let col := model_collaborators Status_OK Status_OK in
  let cfg := sample_config 1 2 false false in
  shelly_mode cfg = 1
  /\ @WindowCovering_allocated col = true
  /\ ok (@WindowCovering_Init col (new_WindowCovering healthy_registry 1 (wc1 cfg))) = true
  /\ exists g',
       @CreateComponents col cfg healthy_registry bridge_only = Some g'
       /\ count is_new_accessory (g_calls g') = 1%nat
       /\ hap_input_ids (g_calls g') = [2].
Proof.
  intros col cfg. do 3 (split; [reflexivity |]).
  destruct (@roller_shutter_exposure col cfg healthy_registry bridge_only
              eq_refl eq_refl eq_refl)
    as (g' & t & Hrun & Hcalls & _ & _ & Hnew & Hids).
  exists g'. split; [exact Hrun |].
  rewrite Hcalls. cbn [bridge_only g_calls app]. unfold count.
  rewrite Hnew. split; [reflexivity | exact Hids].
Defined.

(** C2 on the bridge-only graph with the modelled [CreateHAPSwitch]: the
    legacy and the plain layout both end with switch 1 before switch 2. *)
Lemma legacy_layout_restores_order_witness :
  let col := model_collaborators Status_OK Status_OK in
  let cfg := sample_config 0 0 false true in
  let sw id := CExternal {| ext_kind := HAPSwitch; ext_id := id; ext_primary := false |} in
  exists gl gp,
    @CreateComponents col (with_legacy true cfg) healthy_registry bridge_only = Some gl
    /\ @CreateComponents col (with_legacy false cfg) healthy_registry bridge_only = Some gp
    /\ g_comps gl = [sw 1; sw 2]
    /\ g_comps gp = [sw 1; sw 2].
Proof.
  intros col cfg sw.
  destruct (@legacy_layout_restores_order col cfg healthy_registry bridge_only
              (sw 1) (sw 2) (sw 1) (sw 2))
    as (gl & gp & Hl & Hp & _ & _ & Hcl & Hcp).
  1, 2, 3, 4: cbn; lia.
  1: reflexivity.
  1, 2, 3, 4: intros cs accs; reflexivity.
  exists gl, gp. repeat split; assumption.
Defined.

(** C5 as stated fails on the code.  Roller-shutter mode, sub-mode single:
    the run succeeds, the covering is the one primary component, but the
    category of accessory 0 is never set and stays what it was.  Garage-door
    mode with a failing [Init]: the run ends with no component at all, hence
    none that is primary. *)
Lemma primary_uniqueness_and_category_fail :
  (exists g',
     @CreateComponents (model_collaborators Status_OK Status_OK)
        (sample_config 1 2 false false) healthy_registry bridge_only = Some g'
     /\ count sets_pri_category (g_calls g') = 0%nat
     /\ acc_category <$> g_accs g' !! 0%nat = Some kHAPAccessoryCategory_Bridges
     /\ ~ (count_primary (g_comps g') = 1%nat
           /\ count sets_pri_category (g_calls g') = 1%nat))
  /\ (exists g',
        @CreateComponents (model_collaborators Status_OK (Errorf (STATUS_error 1) "init"))
           (sample_config 2 0 false false) healthy_registry bridge_only = Some g'
        /\ count_primary (g_comps g') = 0%nat
        /\ ~ (count_primary (g_comps g') = 1%nat
              /\ count sets_pri_category (g_calls g') = 1%nat)).
Proof.
  split; eexists; (split; [reflexivity |]); cbn.
  - split; [reflexivity |]. split; [reflexivity |]. intros [_ H]. discriminate H.
  - split; [reflexivity |]. intros [H _]. discriminate H.
Qed.

(** C5 as amended, in garage-door mode on the bridge-only graph: one
    component, primary, and the category of accessory 0 set once, to garage
    door opener. *)
Lemma primary_and_category_by_branch_witness :
  let col := model_collaborators Status_OK Status_OK in
  let cfg := sample_config 2 0 false false in
  exists g',
    @CreateComponents col cfg healthy_registry bridge_only = Some g'
    /\ count_primary (g_comps g') = 1%nat
    /\ count sets_pri_category (g_calls g') = 1%nat
    /\ acc_category <$> g_accs g' !! 0%nat = Some kHAPAccessoryCategory_GarageDoorOpeners.
Proof.
  intros col cfg. eexists. split; [reflexivity |].
  destruct (@primary_and_category_by_branch col cfg healthy_registry bridge_only _
              (or_intror eq_refl) eq_refl)
    as (t & Hcalls & cs & Hcomps & _ & _ & Hcount & Hcs & Hset & Hcat).
  split; [| split].
  - rewrite Hcount, Hcs. reflexivity.
  - rewrite Hcalls. unfold count. cbn [bridge_only g_calls app]. now rewrite Hset.
  - exact Hcat.
Defined.

(** * Concrete runs of the further properties *)

(** X7 in normal mode on the bridge-only graph: two [CreateHAPSwitch] calls
    and nothing else. *)
Lemma modes_are_exclusive_witness :
  let col := model_collaborators Status_OK Status_OK in
  let cfg := sample_config 0 0 false false in
  exists g',
    @CreateComponents col cfg healthy_registry bridge_only = Some g'
    /\ count is_hap_switch (g_calls g') = 2%nat.
Proof.
  intros col cfg. eexists. split; [reflexivity |].
  destruct (@modes_are_exclusive col cfg healthy_registry bridge_only _ eq_refl)
    as (t & Hcalls & Hcount & _).
  rewrite Hcalls. exact Hcount.
Defined.

(** X8 for mode 7 and for mode -1. *)
Lemma other_modes_fall_through_to_normal_witness :
  let col := model_collaborators Status_OK Status_OK in
  @CreateComponents col (sample_config 7 0 false true) healthy_registry bridge_only
  = @CreateComponents col (sample_config 0 0 false true) healthy_registry bridge_only
  /\ @CreateComponents col (sample_config (-1) 0 false false) healthy_registry bridge_only
     = @CreateComponents col (sample_config 0 0 false false) healthy_registry bridge_only.
Proof.
  intros col. split.
  - apply (@other_modes_fall_through_to_normal col (sample_config 7 0 false true));
      cbn; lia.
  - apply (@other_modes_fall_through_to_normal col (sample_config (-1) 0 false false));
      cbn; lia.
Defined.

(** X9 in normal mode with switch 2 detached. *)
Lemma legacy_flag_ignored_witness :
  let col := model_collaborators Status_OK Status_OK in
  let cfg := sample_switch_config 0 0 3 true in
  sw_in_mode (sw2 cfg) = 3
  /\ @CreateComponents col (with_legacy true cfg) healthy_registry bridge_only
     = @CreateComponents col (with_legacy false cfg) healthy_registry bridge_only.
Proof.
  intros col cfg. split; [reflexivity |].
  apply (@legacy_flag_ignored col cfg). right. right. right. reflexivity.
Defined.

(** X10 with sub-mode 7 and an empty accessory list. *)
Lemma unknown_sub_mode_attaches_nothing_witness :
  let col := model_collaborators Status_OK Status_OK in
  let cfg := sample_config 1 7 false false in
  let g := {| g_comps := []; g_accs := []; g_calls := [] |} in
  exists g',
    @CreateComponents col cfg healthy_registry g = Some g'
    /\ g_accs g' = []
    /\ length (g_comps g') = 1%nat.
Proof.
  intros col cfg g. eexists. split.
  - apply (@unknown_sub_mode_attaches_nothing col cfg healthy_registry g);
      try reflexivity. right. cbn. lia.
  - split; reflexivity.
Defined.

(** X11 on a graph that already holds one component. *)
Lemma legacy_reverse_moves_earlier_components_witness :
  let col := model_collaborators Status_OK Status_OK in
  let cfg := sample_config 0 0 false true in
  let sw id := CExternal {| ext_kind := HAPSwitch; ext_id := id; ext_primary := false |} in
  exists gl gp,
    @CreateComponents col (with_legacy true cfg) healthy_registry bridge_with_component
      = Some gl
    /\ @CreateComponents col (with_legacy false cfg) healthy_registry bridge_with_component
       = Some gp
    /\ g_comps gl = [sw 1; sw 2] ++ reverse (g_comps bridge_with_component)
    /\ g_comps gp = g_comps bridge_with_component ++ [sw 1; sw 2].
Proof.
  intros col cfg sw.
  apply (@legacy_reverse_moves_earlier_components col cfg healthy_registry
           bridge_with_component (sw 1) (sw 2) (sw 1) (sw 2)).
  1, 2, 3, 4: cbn; lia.
  all: intros cs accs; reflexivity.
Defined.

(** X12 on the bridge-only graph. *)
Lemma garage_door_frame_witness :
  let col := model_collaborators Status_OK Status_OK in
  let cfg := sample_config 2 0 false false in
  exists g',
    @CreateComponents col cfg healthy_registry bridge_only = Some g'
    /\ length (g_accs g') = 1%nat
    /\ acc_category <$> g_accs g' !! 0%nat = Some kHAPAccessoryCategory_GarageDoorOpeners
    /\ acc_name <$> g_accs g' !! 0%nat = Some "Shelly".
Proof.
  intros col cfg.
  destruct (@garage_door_frame col cfg healthy_registry bridge_only _ []
              eq_refl eq_refl eq_refl eq_refl)
    as (g' & t & Hrun & _ & _ & _ & Haccs).
  exists g'. split; [exact Hrun |]. rewrite Haccs. repeat split.
Defined.

(** X13 in sub-mode detached on the bridge-only graph with the modelled
    [CreateHAPInput]: the bridge accessory is still first, with its
    category. *)
Lemma bridged_covering_keeps_existing_accessories_witness :
  let col := model_collaborators Status_OK Status_OK in
  let cfg := sample_config 1 3 false false in
  exists g',
    @CreateComponents col cfg healthy_registry bridge_only = Some g'
    /\ acc_category <$> g_accs g' !! 0%nat = Some kHAPAccessoryCategory_Bridges
    /\ acc_category <$> g_accs g' !! 1%nat = Some kHAPAccessoryCategory_BridgedAccessory.
Proof.
  intros col cfg.
  destruct (@bridged_covering_keeps_existing_accessories col cfg healthy_registry
              bridge_only eq_refl eq_refl eq_refl (or_intror eq_refl))
    as (g' & extra & Hrun & Haccs).
  { intros id c cs accs. eexists. reflexivity. }
  exists g'. split; [exact Hrun |]. rewrite Haccs. split; reflexivity.
Defined.

(** X14 in sub-mode detached on the bridge-only graph with the modelled
    [CreateHAPInput]. *)
Lemma one_primary_after_service_branch_witness :
  let col := model_collaborators Status_OK Status_OK in
  let cfg := sample_config 1 3 false false in
  exists g',
    @CreateComponents col cfg healthy_registry bridge_only = Some g'
    /\ length (g_comps g') = 3%nat
    /\ count_primary (g_comps g') = 1%nat.
Proof.
  intros col cfg. eexists. split; [reflexivity |]. split; [reflexivity |].
  apply (@one_primary_after_service_branch col cfg healthy_registry bridge_only).
  - left. repeat split.
  - intros id c cs accs.
    change (count_primary
              (cs ++ [CExternal {| ext_kind := HAPInput; ext_id := id;
                                   ext_primary := false |}])
            = count_primary cs).
    unfold count_primary. rewrite count_app. cbn. lia.
  - reflexivity.
  - reflexivity.
Defined.

(** X15 at boot on hardware whose chip does not come up: inputs and outputs
    are bound, the meters are null. *)
Lemma covering_binds_factory_peripherals_witness :
  let hw := hardware false Status_OK Status_OK in
  let wc := new_WindowCovering (@CreatePeripherals hw boot) 1
              {| wc_name := "Shutter"; wc_in_mode := 0; wc_swap_inputs := false |} in
  in_pin <$> wc_in1 wc = Some 13
  /\ out_pin <$> wc_out2 wc = Some 15
  /\ wc_pm1 wc = None.
Proof.
  intros hw wc.
  destruct (@covering_binds_factory_peripherals hw boot
              {| wc_name := "Shutter"; wc_in_mode := 0; wc_swap_inputs := false |}
              eq_refl eq_refl eq_refl)
    as (Hi1 & _ & _ & Ho2 & Hp1 & _).
  split; [exact Hi1 |]. split; [exact Ho2 |]. reflexivity.
Defined.
